(** * Email assistant: triage router and tool-calling response loop

    A shallow embedding of the two notebooks of the repository:

    - [notebooks/agent.ipynb]: the tools, [triage_router], [llm_call],
      [tool_handler], [should_continue], the compiled response [agent]
      graph and the [overall_workflow] that puts the router in front of it;
    - the LangGraph 101 notebook: [call_llm], [run_tool], its own
      [should_continue] and the one-shot [workflow].

    Python exceptions are values of [Exception] carried by the [Fallible]
    monad.  The chat models, the prompt texts and the helpers imported from
    the [email_assistant] package are not part of the notebooks; they are
    the fields of the classes [Host] and [EmailAssistant]. *)

From Stdlib Require Import ZArith String Ascii.
From stdpp Require Import base strings gmap list pretty.

Open Scope string_scope.
Open Scope list_scope.

(** ** Exceptions and the error monad *)

(** The Python exceptions the notebooks can raise.  [KeyError] carries the
    key that was looked up: a string, or Python's [None]. *)
Inductive Exception :=
| KeyError (key : option string)
| ValueError (msg : string)
| IndexError
| AttributeError (attr : string)
| ValidationError (tool : string).

Inductive Fallible (A : Type) :=
| Ok (a : A)
| Raise (e : Exception).
Arguments Ok {A} a.
Arguments Raise {A} e.

#[global] Instance Fallible_ret : MRet Fallible := fun A a => Ok a.
#[global] Instance Fallible_bind : MBind Fallible := fun A B f m =>
  match m with
  | Ok a => f a
  | Raise e => Raise e
  end.
#[global] Instance Fallible_fmap : FMap Fallible := fun A B f m =>
  match m with
  | Ok a => Ok (f a)
  | Raise e => Raise e
  end.

(** ** Data model *)

(** JSON values a model can put in the argument mapping of a tool call. *)
Inductive Value :=
| VStr (s : string)
| VInt (n : Z)
| VBool (b : bool)
| VStrs (l : list string).

(** A tool call request: the dict with keys "name", "args" and "id". *)
Module ToolCall.
Record t := mk { name : string; args : gmap string Value; id : string }.
End ToolCall.

(** The role strings "system", "user", "assistant" and "tool". *)
Inductive Role := RSystem | RUser | RAssistant | RTool.

(** Messages of the conversation.  Only an [AIMessage] has the attribute
    [tool_calls]; only a [ToolMessage] has a [tool_call_id]. *)
Inductive Message :=
| SystemMessage (content : string)
| HumanMessage (content : string)
| AIMessage (content : string) (tool_calls : list ToolCall.t)
| ToolMessage (content : string) (tool_call_id : string).

Definition role (m : Message) : Role :=
  match m with
  | SystemMessage _ => RSystem
  | HumanMessage _ => RUser
  | AIMessage _ _ => RAssistant
  | ToolMessage _ _ => RTool
  end.

Definition tool_call_id_of (m : Message) : option string :=
  match m with
  | ToolMessage _ i => Some i
  | _ => None
  end.

(** [class RouterSchema(BaseModel)]: the structured output of the triage
    model.  The label is kept as the string the code compares. *)
Record RouterSchema := { reasoning : string; classification : string }.

(** [class State(MessagesState)]. *)
Module State.
Record t := mk {
  messages : list Message;
  email_input : gmap string string;
  classification_decision : option string
}.
End State.

(** The dict a node returns: each key is optional. *)
Module Update.
Record t := mk {
  messages : option (list Message);
  classification_decision : option string
}.
End Update.

(** [Command(goto=..., update=...)]. *)
Record Command := { goto : string; update : Update.t }.

(** The state reducers: [messages] appends what a node returns,
    [classification_decision] is overwritten when the key is present. *)
Definition apply_update (st : State.t) (u : Update.t) : State.t :=
  State.mk
    (State.messages st ++ default [] (Update.messages u))
    (State.email_input st)
    (match Update.classification_decision u with
     | Some d => Some d
     | None => State.classification_decision st
     end).

Definition START : string := "__start__".
Definition END : string := "__end__".

Definition nl : string := String (ascii_of_nat 10) EmptyString.

(** ** What the notebooks import *)

(** The Python library and the model provider.  A model is a function of
    the conversation it is sent: within one run every turn is asked with a
    longer conversation than the turn before, so any sequence of answers is
    the behaviour of such a function. *)
Class Host := {
  datetime : Type;
  parse_datetime : string → option datetime;
  strftime : datetime → string → string;
  (** [llm.bind_tools(tools, tool_choice="required")] of agent.ipynb:
      the content and the tool calls of the [AIMessage] it answers. *)
  llm_with_tools : list Message → string * list ToolCall.t;
  (** [llm.with_structured_output(RouterSchema)]. *)
  llm_router : list Message → RouterSchema;
  (** [llm.bind_tools([write_email], tool_choice="any", ...)] of the
      LangGraph 101 notebook. *)
  model_with_tools : list Message → string * list ToolCall.t
}.

(** [email_assistant.utils], [email_assistant.prompts] and the tool prompt
    template; a [str.format] template is a function of its fields. *)
Class EmailAssistant := {
  parse_email : gmap string string → string * string * string * string;
  format_email_markdown : string → string → string → string → string;
  triage_system_prompt : string → string → string;
  triage_user_prompt : string → string → string → string → string;
  default_background : string;
  default_triage_instructions : string;
  AGENT_TOOLS_PROMPT : string;
  agent_system_prompt : string → string → string → string → string;
  default_response_preferences : string;
  default_cal_preferences : string
}.

(** A [@tool]: its name and [invoke] on an argument mapping. *)
Module Tool.
Record t := mk { name : string; invoke : gmap string Value → Fallible string }.
End Tool.

(** Reading one argument of the schema of tool [t]; a missing or ill-typed
    argument fails validation. *)
Definition arg_str (t k : string) (a : gmap string Value) : Fallible string :=
  match a !! k with
  | Some (VStr s) => Ok s
  | _ => Raise (ValidationError t)
  end.

Definition arg_int (t k : string) (a : gmap string Value) : Fallible Z :=
  match a !! k with
  | Some (VInt n) => Ok n
  | _ => Raise (ValidationError t)
  end.

Definition arg_bool (t k : string) (a : gmap string Value) : Fallible bool :=
  match a !! k with
  | Some (VBool b) => Ok b
  | _ => Raise (ValidationError t)
  end.

Definition arg_strs (t k : string) (a : gmap string Value) : Fallible (list string) :=
  match a !! k with
  | Some (VStrs l) => Ok l
  | _ => Raise (ValidationError t)
  end.

Section Agent.
Context {host : Host} {pkg : EmailAssistant}.

Definition arg_datetime (t k : string) (a : gmap string Value) : Fallible datetime :=
  match a !! k with
  | Some (VStr s) =>
      match parse_datetime s with
      | Some d => Ok d
      | None => Raise (ValidationError t)
      end
  | _ => Raise (ValidationError t)
  end.

(** ** Tool definition (agent.ipynb) *)

Definition write_email (to subject content : string) : string :=
  "Email sent to " +:+ to +:+ " with subject '" +:+ subject
    +:+ "' and content: " +:+ content.

Definition schedule_meeting (attendees : list string) (subject : string)
    (duration_minutes : Z) (preferred_day : datetime) (start_time : Z) : string :=
  let date_str := strftime preferred_day "%A, %B %d, %Y" in
  "Meeting '" +:+ subject +:+ "' scheduled on " +:+ date_str +:+ " at "
    +:+ pretty start_time +:+ " for " +:+ pretty duration_minutes
    +:+ " minutes with " +:+ pretty (length attendees) +:+ " attendees".

Definition check_calendar_availability (day : string) : string :=
  "Available times on " +:+ day +:+ ": 9:00 AM, 2:00 PM, 4:00 PM".

(** [class Done(BaseModel)] with the one field [done]; the text is what the
    object reads as once it is the content of a tool message. *)
Definition Done (done : bool) : string :=
  if done then "done=True" else "done=False".

Definition write_email_tool : Tool.t :=
  Tool.mk "write_email" (λ a,
    to ← arg_str "write_email" "to" a;
    subject ← arg_str "write_email" "subject" a;
    content ← arg_str "write_email" "content" a;
    mret (write_email to subject content)).

Definition schedule_meeting_tool : Tool.t :=
  Tool.mk "schedule_meeting" (λ a,
    attendees ← arg_strs "schedule_meeting" "attendees" a;
    subject ← arg_str "schedule_meeting" "subject" a;
    duration_minutes ← arg_int "schedule_meeting" "duration_minutes" a;
    preferred_day ← arg_datetime "schedule_meeting" "preferred_day" a;
    start_time ← arg_int "schedule_meeting" "start_time" a;
    mret (schedule_meeting attendees subject duration_minutes preferred_day start_time)).

Definition check_calendar_availability_tool : Tool.t :=
  Tool.mk "check_calendar_availability" (λ a,
    day ← arg_str "check_calendar_availability" "day" a;
    mret (check_calendar_availability day)).

Definition Done_tool : Tool.t :=
  Tool.mk "Done" (λ a, done ← arg_bool "Done" "done" a; mret (Done done)).

(** ** Agent (agent.ipynb) *)

Definition tools : list Tool.t :=
  [write_email_tool; schedule_meeting_tool; check_calendar_availability_tool; Done_tool].

(** [{tool.name: tool for tool in tools}]: a later entry of the same name
    would overwrite an earlier one. *)
Definition tools_by_name : gmap string Tool.t :=
  foldl (λ m tool, <[Tool.name tool := tool]> m) ∅ tools.

Definition llm_call (st : State.t) : Update.t :=
  let output :=
    llm_with_tools
      (SystemMessage
         (agent_system_prompt AGENT_TOOLS_PROMPT default_background
            default_response_preferences default_cal_preferences)
       :: State.messages st) in
  Update.mk (Some [AIMessage output.1 output.2]) None.

(** [messages[-1]]. *)
Definition last_message (messages : list Message) : Fallible Message :=
  match last messages with
  | Some m => Ok m
  | None => Raise IndexError
  end.

(** The attribute [.tool_calls]. *)
Definition tool_calls (m : Message) : Fallible (list ToolCall.t) :=
  match m with
  | AIMessage _ calls => Ok calls
  | _ => Raise (AttributeError "tool_calls")
  end.

(** The [for] loop of [tool_handler]; [result] is the list built so far. *)
Fixpoint tool_handler_loop (calls : list ToolCall.t) (result : list Message)
    : Fallible (list Message) :=
  match calls with
  | [] => Ok result
  | tool_call :: calls =>
      match tools_by_name !! ToolCall.name tool_call with
      | None => Raise (KeyError (Some (ToolCall.name tool_call)))
      | Some tool =>
          observation ← Tool.invoke tool (ToolCall.args tool_call);
          tool_handler_loop calls
            (result ++ [ToolMessage observation (ToolCall.id tool_call)])
      end
  end.

(** One iteration of that loop: the tool message of one call. *)
Definition dispatch (tool_call : ToolCall.t) : Fallible Message :=
  match tools_by_name !! ToolCall.name tool_call with
  | None => Raise (KeyError (Some (ToolCall.name tool_call)))
  | Some tool =>
      observation ← Tool.invoke tool (ToolCall.args tool_call);
      mret (ToolMessage observation (ToolCall.id tool_call))
  end.

Definition tool_handler (st : State.t) : Fallible Update.t :=
  m ← last_message (State.messages st);
  calls ← tool_calls m;
  result ← tool_handler_loop calls [];
  mret (Update.mk (Some result) None).

(** [should_continue] of agent.ipynb.  Python's [None] is the answer when
    no [return] statement is reached: the list of tool calls is empty.
    Otherwise the first iteration of the [for] loop returns. *)
Definition should_continue (st : State.t) : Fallible (option string) :=
  m ← last_message (State.messages st);
  calls ← tool_calls m;
  match calls with
  | [] => mret None
  | tool_call :: _ =>
      if String.eqb (ToolCall.name tool_call) "Done"
      then mret (Some END)
      else mret (Some "tool_handler")
  end.

(** The mapping given to [add_conditional_edges]. *)
Definition path_map : gmap string string :=
  {[ "tool_handler" := "tool_handler"; END := END ]}.

(** Looking the router's answer up in the mapping, as a dict: an answer
    that is not a key is a [KeyError]. *)
Definition conditional_edge (ends : gmap string string) (r : option string)
    : Fallible string :=
  match r ≫= (ends !!.) with
  | Some dest => Ok dest
  | None => Raise (KeyError r)
  end.

(** How a run of a graph ends, and the nodes it went through. *)
Inductive Ending :=
| Finished (st : State.t)
| Failed (e : Exception)
| Unfinished.

Definition Run : Type := list string * Ending.

Definition visit (node : string) (r : Run) : Run := (node :: r.1, r.2).

(** The compiled response agent: START -> llm_call, the conditional edges
    out of llm_call, tool_handler -> llm_call.  The loop has no bound of its
    own; [fuel] is the number of model turns the run is followed for. *)
Fixpoint agent (fuel : nat) (st : State.t) : Run :=
  match fuel with
  | 0 => ([], Unfinished)
  | S fuel =>
      let st := apply_update st (llm_call st) in
      visit "llm_call"
        match should_continue st ≫= conditional_edge path_map with
        | Raise e => ([], Failed e)
        | Ok dest =>
            if String.eqb dest END then ([], Finished st)
            else
              visit "tool_handler"
                match tool_handler st with
                | Raise e => ([], Failed e)
                | Ok u => agent fuel (apply_update st u)
                end
        end
  end.

(** ** Router (agent.ipynb) *)

Definition triage_router (st : State.t) : Fallible Command :=
  let '(author, to, subject, email_thread) := parse_email (State.email_input st) in
  let system_prompt :=
    triage_system_prompt default_background default_triage_instructions in
  let user_prompt := triage_user_prompt author to subject email_thread in
  let result := llm_router [SystemMessage system_prompt; HumanMessage user_prompt] in
  if String.eqb (classification result) "respond" then
    Ok {| goto := "response_agent";
          update := Update.mk
            (Some [HumanMessage ("Respond to the email: " +:+ nl +:+ nl
                     +:+ format_email_markdown subject author to email_thread)])
            (Some (classification result)) |}
  else if String.eqb (classification result) "ignore" then
    Ok {| goto := END; update := Update.mk None (Some (classification result)) |}
  else if String.eqb (classification result) "notify" then
    Ok {| goto := END; update := Update.mk None (Some (classification result)) |}
  else
    Raise (ValueError ("Invalid classification: " +:+ classification result)).

(** The label the triage model gives to the email of [st]. *)
Definition triage_classification (st : State.t) : string :=
  let '(author, to, subject, email_thread) := parse_email (State.email_input st) in
  classification
    (llm_router
       [SystemMessage (triage_system_prompt default_background default_triage_instructions);
        HumanMessage (triage_user_prompt author to subject email_thread)]).

(** The instruction message the router seeds the agent with. *)
Definition respond_instruction (st : State.t) : Message :=
  let '(author, to, subject, email_thread) := parse_email (State.email_input st) in
  HumanMessage ("Respond to the email: " +:+ nl +:+ nl
                  +:+ format_email_markdown subject author to email_thread).

(** The router in front of the agent: START -> triage_router, then where the
    [Command] says.  The agent runs as a node on the state it is given and
    its final state is the state of the workflow. *)
Definition overall_workflow (fuel : nat) (st : State.t) : Run :=
  visit "triage_router"
    match triage_router st with
    | Raise e => ([], Failed e)
    | Ok cmd =>
        let st := apply_update st (update cmd) in
        if String.eqb (goto cmd) END then ([], Finished st)
        else visit "response_agent" (agent fuel st)
    end.

(** [overall_workflow.invoke({"email_input": email_input})]. *)
Definition invoke (fuel : nat) (email_input : gmap string string) : Run :=
  overall_workflow fuel (State.mk [] email_input None).

End Agent.

(** ** LangGraph 101 *)

Module LangGraph101.
Section Workflow.
Context {host : Host}.

Definition call_llm (messages : list Message) : list Message :=
  let output := model_with_tools messages in
  [AIMessage output.1 output.2].

(** Every call of the turn goes to [write_email], whatever its name. *)
Fixpoint run_tool_loop (calls : list ToolCall.t) (result : list Message)
    : Fallible (list Message) :=
  match calls with
  | [] => Ok result
  | tool_call :: calls =>
      observation ← Tool.invoke write_email_tool (ToolCall.args tool_call);
      run_tool_loop calls
        (result ++ [ToolMessage observation (ToolCall.id tool_call)])
  end.

Definition run_tool (messages : list Message) : Fallible (list Message) :=
  m ← last_message messages;
  calls ← tool_calls m;
  run_tool_loop calls [].

Definition should_continue (messages : list Message) : Fallible string :=
  m ← last_message messages;
  calls ← tool_calls m;
  match calls with
  | _ :: _ => mret "run_tool"
  | [] => mret END
  end.

Definition path_map : gmap string string :=
  {[ "run_tool" := "run_tool"; END := END ]}.

(** How the one-shot workflow ends: with the conversation, or an error. *)
Inductive Ending :=
| Finished (messages : list Message)
| Failed (e : Exception).

(** START -> call_llm, the conditional edges, run_tool -> END. *)
Definition workflow (messages : list Message) : list string * Ending :=
  let messages := messages ++ call_llm messages in
  match should_continue messages ≫= (λ r, conditional_edge path_map (Some r)) with
  | Raise e => (["call_llm"], Failed e)
  | Ok dest =>
      if String.eqb dest END then (["call_llm"], Finished messages)
      else
        match run_tool messages with
        | Raise e => (["call_llm"; "run_tool"], Failed e)
        | Ok result => (["call_llm"; "run_tool"], Finished (messages ++ result))
        end
  end.

(** [class StateSchema(TypedDict)] of the first workflow of the notebook: a
    dict with the keys "request" and "email", either of which may be
    absent. *)
Record StateSchema := { request : option string; email : option string }.

(** The node answers the dict with the one key "email".  A string given to
    the model is the conversation of one user message. *)
Definition write_email_node (state : StateSchema) : Fallible StateSchema :=
  match request state with
  | None => Raise (KeyError (Some "request"))
  | Some r =>
      let output := model_with_tools [HumanMessage r] in
      match output.2 with
      | [] => Raise IndexError
      | tool_call :: _ =>
          email ← Tool.invoke write_email_tool (ToolCall.args tool_call);
          mret {| request := None; email := Some email |}
      end
  end.

(** START -> write_email_node -> END; a key of the update overwrites the
    key of the state. *)
Definition app (state : StateSchema) : Fallible StateSchema :=
  u ← write_email_node state;
  mret {| request := match request u with Some r => Some r | None => request state end;
          email := match email u with Some e => Some e | None => email state end |}.

End Workflow.
End LangGraph101.

(** ** A scripted model and a sample package

    A deterministic model for running the graphs on concrete inputs: turn
    [n] of a conversation (the number of assistant messages so far) answers
    the [n]-th batch of [script], and past its end no tool call at all; the
    router always answers [label]. *)

Definition is_assistant (m : Message) : bool :=
  match m with
  | AIMessage _ _ => true
  | _ => false
  end.

Definition scripted (script : list (list ToolCall.t)) (messages : list Message)
    : string * list ToolCall.t :=
  ("", default [] (script !! length (List.filter is_assistant messages))).

Definition scripted_host (script : list (list ToolCall.t)) (label : string) : Host :=
  {| datetime := string;
     parse_datetime := Some;
     strftime := λ d _, d;
     llm_with_tools := scripted script;
     llm_router := λ _, {| reasoning := ""; classification := label |};
     model_with_tools := scripted script |}.

Definition sample_package : EmailAssistant :=
  {| parse_email := λ e,
       (default "" (e !! "author"), default "" (e !! "to"),
        default "" (e !! "subject"), default "" (e !! "email_thread"));
     format_email_markdown := λ subject author to email_thread,
       "**Subject**: " +:+ subject +:+ nl +:+ "**From**: " +:+ author +:+ nl
         +:+ "**To**: " +:+ to +:+ nl +:+ nl +:+ email_thread;
     triage_system_prompt := λ background triage_instructions,
       background +:+ nl +:+ triage_instructions;
     triage_user_prompt := λ author to subject email_thread,
       "From: " +:+ author +:+ nl +:+ "To: " +:+ to +:+ nl
         +:+ "Subject: " +:+ subject +:+ nl +:+ email_thread;
     default_background := "I am John.";
     default_triage_instructions := "Reply to direct questions.";
     AGENT_TOOLS_PROMPT := "write_email, schedule_meeting, check_calendar_availability, Done";
     agent_system_prompt := λ tools_prompt background response_preferences cal_preferences,
       tools_prompt +:+ nl +:+ background +:+ nl +:+ response_preferences
         +:+ nl +:+ cal_preferences;
     default_response_preferences := "Be brief.";
     default_cal_preferences := "30 minute meetings." |}.

Definition sample_email : gmap string string :=
  {[ "author" := "Alice Smith <alice.smith@company.com>";
     "to" := "John Doe <john.doe@company.com>";
     "subject" := "Quick question about API documentation";
     "email_thread" := "Hi John, are /auth/refresh and /auth/validate missing on purpose?" ]}.

Definition call_Done (id : string) : ToolCall.t :=
  ToolCall.mk "Done" {[ "done" := VBool true ]} id.

Definition call_write_email (id : string) : ToolCall.t :=
  ToolCall.mk "write_email"
    {[ "to" := VStr "alice.smith@company.com";
       "subject" := VStr "Re: Quick question about API documentation";
       "content" := VStr "They are missing by mistake." ]} id.

Definition call_check_calendar (id : string) : ToolCall.t :=
  ToolCall.mk "check_calendar_availability" {[ "day" := VStr "Tuesday" ]} id.

Definition call_unknown (id : string) : ToolCall.t :=
  ToolCall.mk "search_web" {[ "query" := VStr "auth endpoints" ]} id.

(** The state the router hands to the agent for [sample_email]. *)
Definition seeded : State.t :=
  State.mk [HumanMessage "Respond to the email: Quick question about API documentation"]
    sample_email (Some "respond").

(** Models that answer one fixed sequence of turns. *)
Definition host_reply_then_Done : Host :=
  scripted_host [[call_write_email "call_1"]; [call_Done "call_2"]] "respond".

Definition host_Done_later : Host :=
  scripted_host [[call_write_email "call_1"; call_Done "call_2"]; [call_Done "call_3"]]
    "respond".

Definition host_Done_first : Host :=
  scripted_host [[call_Done "call_1"; call_write_email "call_2"]] "respond".

Definition host_Done_then_unknown : Host :=
  scripted_host [[call_Done "call_1"; call_unknown "call_2"]] "respond".

Definition host_unknown : Host :=
  scripted_host
    [[call_check_calendar "call_1"; call_unknown "call_2"; call_write_email "call_3"]]
    "respond".

Definition host_silent : Host := scripted_host [] "respond".

Definition host_notify : Host := scripted_host [] "notify".

Definition host_urgent : Host := scripted_host [] "urgent".

(** A model that answers every turn alike: an email, then Done. *)
Definition host_Done_second : Host :=
  {| datetime := string;
     parse_datetime := Some;
     strftime := λ d _, d;
     llm_with_tools := λ _, ("", [call_write_email "call_1"; call_Done "call_2"]);
     llm_router := λ _, {| reasoning := ""; classification := "respond" |};
     model_with_tools := λ _, ("", [call_write_email "call_1"; call_unknown "call_2"]) |}.

(** One completed turn of the agent as it stands in the conversation: the
    assistant message and the tool messages that answer it. *)
Record Turn := {
  turn_content : string;
  turn_calls : list ToolCall.t;
  turn_results : list Message
}.

Definition turn_messages (t : Turn) : list Message :=
  AIMessage (turn_content t) (turn_calls t) :: turn_results t.

(** * Properties *)

Section Properties.
Context {host : Host} {pkg : EmailAssistant}.

(** ** The conversation after a model turn *)

Lemma last_message_snoc (l : list Message) (m : Message) :
  last_message (l ++ [m]) = Ok m.
Proof. unfold last_message. by rewrite last_snoc. Qed.

Lemma llm_call_shape (st : State.t) :
  ∃ content calls, llm_call st = Update.mk (Some [AIMessage content calls]) None.
Proof. unfold llm_call. eauto. Qed.

Lemma apply_update_messages (st : State.t) (new : list Message) :
  apply_update st (Update.mk (Some new) None)
  = State.mk (State.messages st ++ new) (State.email_input st)
      (State.classification_decision st).
Proof. reflexivity. Qed.

Lemma route_END : conditional_edge path_map (Some END) = Ok END.
Proof. reflexivity. Qed.

Lemma route_tool_handler :
  conditional_edge path_map (Some "tool_handler") = Ok "tool_handler".
Proof. reflexivity. Qed.


Lemma should_continue_last (st : State.t) content calls :
  last (State.messages st) = Some (AIMessage content calls) →
  should_continue st
  = Ok match calls with
       | [] => None
       | tool_call :: _ =>
           Some (if String.eqb (ToolCall.name tool_call) "Done"
                 then END else "tool_handler")
       end.
Proof.
  intros Hlast. unfold should_continue, last_message. rewrite Hlast. cbn.
  destruct calls as [|tool_call rest]; [done|].
  by destruct (String.eqb _ _).
Qed.

Lemma tool_handler_last (st : State.t) content calls :
  last (State.messages st) = Some (AIMessage content calls) →
  tool_handler st = (λ r, Update.mk (Some r) None) <$> tool_handler_loop calls [].
Proof.
  intros Hlast. unfold tool_handler, last_message. rewrite Hlast. cbn.
  by destruct (tool_handler_loop calls []).
Qed.

(** ** The loop of the tool handler *)

Lemma tool_handler_loop_step tool_call calls result :
  tool_handler_loop (tool_call :: calls) result
  = m ← dispatch tool_call; tool_handler_loop calls (result ++ [m]).
Proof.
  cbn [tool_handler_loop]. unfold dispatch.
  destruct (tools_by_name !! ToolCall.name tool_call) as [t|]; [|done].
  cbn. by destruct (Tool.invoke t _).
Qed.

Lemma tool_handler_loop_Ok calls : ∀ result out,
  tool_handler_loop calls result = Ok out →
  ∃ new, out = result ++ new ∧ Forall2 (λ tc m, dispatch tc = Ok m) calls new.
Proof.
  induction calls as [|tc calls IH]; intros result out Hrun.
  - exists []. cbn in Hrun. injection Hrun as <-. by rewrite app_nil_r.
  - rewrite tool_handler_loop_step in Hrun.
    destruct (dispatch tc) as [m|e] eqn:Hd; [|done]. cbn in Hrun.
    destruct (IH _ _ Hrun) as (new & -> & Hall).
    exists (m :: new). split; [by rewrite <- app_assoc|]. by constructor.
Qed.

Lemma tool_handler_loop_all calls : ∀ result new,
  Forall2 (λ tc m, dispatch tc = Ok m) calls new →
  tool_handler_loop calls result = Ok (result ++ new).
Proof.
  induction calls as [|tc calls IH]; intros result new Hall.
  - inversion Hall; subst. cbn. by rewrite app_nil_r.
  - inversion Hall as [|? m ? new' Hd Hrest]; subst.
    rewrite tool_handler_loop_step, Hd. cbn.
    rewrite (IH _ _ Hrest). by rewrite <- app_assoc.
Qed.

Lemma tool_handler_loop_Raise before : ∀ tool_call after result recorded e,
  Forall2 (λ tc m, dispatch tc = Ok m) before recorded →
  dispatch tool_call = Raise e →
  tool_handler_loop (before ++ tool_call :: after) result = Raise e.
Proof.
  induction before as [|tc before IH]; intros tool_call after result recorded e Hall Hbad.
  - cbn [app]. by rewrite tool_handler_loop_step, Hbad.
  - inversion Hall as [|? m ? rec' Hd Hrest]; subst.
    cbn [app]. rewrite tool_handler_loop_step, Hd. cbn.
    by apply (IH _ _ _ rec').
Qed.

Lemma dispatch_tool_message tc m :
  dispatch tc = Ok m → ∃ observation, m = ToolMessage observation (ToolCall.id tc).
Proof.
  unfold dispatch. destruct (tools_by_name !! _) as [t|]; [|done].
  destruct (Tool.invoke t _) as [obs|]; [|done]. cbn.
  intros [= <-]. eauto.
Qed.

Lemma dispatched_ids calls new :
  Forall2 (λ tc m, dispatch tc = Ok m) calls new →
  tool_call_id_of <$> new = Some ∘ ToolCall.id <$> calls.
Proof.
  induction 1 as [|tc m calls new Hd _ IH]; [done|].
  destruct (dispatch_tool_message _ _ Hd) as [obs ->]. cbn. by f_equal.
Qed.

(** ** One model turn of the agent *)

Lemma visit_inv node r trace ending :
  visit node r = (trace, ending) → ∃ trace', trace = node :: trace' ∧ r = (trace', ending).
Proof. destruct r as [tr en]. unfold visit. cbn. intros [= <- <-]. eauto. Qed.

Lemma agent_turn fuel st content calls :
  llm_call st = Update.mk (Some [AIMessage content calls]) None →
  agent (S fuel) st
  = let st1 := apply_update st (llm_call st) in
    visit "llm_call"
      match calls with
      | [] => ([], Failed (KeyError None))
      | tool_call :: _ =>
          if String.eqb (ToolCall.name tool_call) "Done" then ([], Finished st1)
          else
            visit "tool_handler"
              match tool_handler_loop calls [] with
              | Raise e => ([], Failed e)
              | Ok result => agent fuel (apply_update st1 (Update.mk (Some result) None))
              end
      end.
Proof.
  intros Hturn. cbn [agent]. rewrite Hturn.
  set (st1 := apply_update st _).
  assert (last (State.messages st1) = Some (AIMessage content calls)) as Hlast.
  { subst st1. rewrite apply_update_messages. cbn. by rewrite last_snoc. }
  rewrite (should_continue_last _ _ _ Hlast), (tool_handler_last _ _ _ Hlast).
  cbv zeta. f_equal. destruct calls as [|tool_call rest].
  - done.
  - destruct (String.eqb (ToolCall.name tool_call) "Done"); cbn [mbind Fallible_bind].
    + by rewrite route_END.
    + rewrite route_tool_handler. cbn -[tool_handler_loop agent apply_update].
      by destruct (tool_handler_loop _ _).
Qed.

(** ** The registry *)

Lemma registry_names (name : string) :
  tools_by_name !! name = None
  ↔ name ∉ ["write_email"; "schedule_meeting"; "check_calendar_availability"; "Done"].
Proof.
  unfold tools_by_name, tools. cbn [foldl Tool.name write_email_tool
    schedule_meeting_tool check_calendar_availability_tool Done_tool].
  rewrite !lookup_insert_None, lookup_empty, !not_elem_of_cons.
  split.
  - intros ((((_ & ?) & ?) & ?) & ?).
    repeat split; try congruence. apply not_elem_of_nil.
  - intros (? & ? & ? & ? & _). repeat split; congruence.
Qed.

Lemma dispatch_unknown tool_call :
  ToolCall.name tool_call
    ∉ ["write_email"; "schedule_meeting"; "check_calendar_availability"; "Done"] →
  dispatch tool_call = Raise (KeyError (Some (ToolCall.name tool_call))).
Proof. intros Hname%registry_names. unfold dispatch. by rewrite Hname. Qed.

(** ** Routing *)

(** C9. When the last message carries at least one tool call, the routing
    decision is a function of the name of the first call alone: the run goes
    to END exactly when that name is "Done" and to the tool handler
    otherwise, whatever the later calls of the message are. *)
Theorem C9_routing_by_first_call (st : State.t) content tool_call rest :
  last (State.messages st) = Some (AIMessage content (tool_call :: rest)) →
  should_continue st
  = Ok (Some (if String.eqb (ToolCall.name tool_call) "Done" then END else "tool_handler"))
  ∧ (should_continue st ≫= conditional_edge path_map = Ok END
     ↔ ToolCall.name tool_call = "Done")
  ∧ (should_continue st ≫= conditional_edge path_map = Ok "tool_handler"
     ↔ ToolCall.name tool_call ≠ "Done").
Proof.
  intros Hlast. rewrite (should_continue_last _ _ _ Hlast). split; [done|].
  cbn [mbind Fallible_bind].
  destruct (String.eqb_spec (ToolCall.name tool_call) "Done") as [Heq|Hne].
  - rewrite route_END. split; split; try done; by intros [=].
  - rewrite route_tool_handler. split; split; try done; by intros [=].
Qed.

(** C1. A run of the response agent reaches END only through a model turn
    that carries a "Done" tool call: when the run has finished, the final
    conversation ends with an assistant message one of whose tool calls is
    named "Done". *)
Theorem C1_end_only_via_Done fuel : ∀ st trace st',
  agent fuel st = (trace, Finished st') →
  ∃ content calls tool_call,
    AIMessage content calls ∈ State.messages st'
    ∧ role (AIMessage content calls) = RAssistant
    ∧ tool_call ∈ calls
    ∧ ToolCall.name tool_call = "Done"
    ∧ last (State.messages st') = Some (AIMessage content calls).
Proof.
  induction fuel as [|fuel IH]; intros st trace st' Hrun; [done|].
  destruct (llm_call_shape st) as (content & calls & Hturn).
  rewrite (agent_turn _ _ _ _ Hturn) in Hrun. cbv zeta in Hrun.
  apply visit_inv in Hrun as (trace1 & -> & Hrun).
  destruct calls as [|tool_call rest]; [done|].
  destruct (String.eqb_spec (ToolCall.name tool_call) "Done") as [Hdone|_].
  - injection Hrun as <- <-. rewrite Hturn, apply_update_messages. cbn.
    exists content, (tool_call :: rest), tool_call.
    rewrite last_snoc. repeat split; try done.
    + apply elem_of_app. right. by apply list_elem_of_singleton.
    + by left.
  - apply visit_inv in Hrun as (trace2 & -> & Hrun).
    destruct (tool_handler_loop _ _) as [result|e]; [|done].
    by apply IH in Hrun.
Qed.

(** ** The tool handler *)

(** C5. Whenever the tool handler returns, the tool messages it appends
    correspond one to one, position by position, to the tool calls of the
    model turn it was run on: same number, each result carrying the id of
    its call, in the order of the calls, and nothing else is appended. *)
Theorem C5_results_match_calls (st : State.t) (u : Update.t) :
  tool_handler st = Ok u →
  ∃ content calls results,
    last (State.messages st) = Some (AIMessage content calls)
    ∧ u = Update.mk (Some results) None
    ∧ Forall2 (λ tc m, ∃ observation, m = ToolMessage observation (ToolCall.id tc))
        calls results
    ∧ length results = length calls
    ∧ tool_call_id_of <$> results = Some ∘ ToolCall.id <$> calls
    ∧ State.messages (apply_update st u) = State.messages st ++ results.
Proof.
  intros Hrun. unfold tool_handler, last_message in Hrun.
  destruct (last (State.messages st)) as [m|] eqn:Hlast; [|done].
  destruct m as [| |content calls|]; try done. cbn in Hrun.
  destruct (tool_handler_loop calls []) as [results|e] eqn:Hloop; [|done].
  cbn in Hrun. injection Hrun as <-.
  apply tool_handler_loop_Ok in Hloop as (new & -> & Hall). cbn [app].
  exists content, calls, new. repeat split; try done.
  - eapply Forall2_impl; [exact Hall|]. intros tc m. apply dispatch_tool_message.
  - symmetry. by eapply Forall2_length.
  - by apply dispatched_ids.
Qed.

(** C2, as the code has it.  A model turn whose first tool call is "Done"
    ends the run at once: the final conversation stops at that assistant
    message and no tool call of the turn is executed or recorded.  A model
    turn whose first tool call is not "Done", and whose calls all dispatch,
    has every one of its calls executed and recorded, in the order of the
    calls, and the run goes on with the next model turn. *)
Theorem C2_turn_with_Done fuel (st : State.t) content tool_call rest :
  llm_call st = Update.mk (Some [AIMessage content (tool_call :: rest)]) None →
  let st1 := apply_update st (llm_call st) in
  State.messages st1 = State.messages st ++ [AIMessage content (tool_call :: rest)]
  ∧ (ToolCall.name tool_call = "Done" →
     agent (S fuel) st = (["llm_call"], Finished st1))
  ∧ (ToolCall.name tool_call ≠ "Done" →
     ∀ results,
       Forall2 (λ tc m, dispatch tc = Ok m) (tool_call :: rest) results →
       tool_handler st1 = Ok (Update.mk (Some results) None)
       ∧ tool_call_id_of <$> results = Some ∘ ToolCall.id <$> (tool_call :: rest)
       ∧ agent (S fuel) st
         = visit "llm_call"
             (visit "tool_handler"
                (agent fuel (apply_update st1 (Update.mk (Some results) None))))).
Proof.
  intros Hturn st1.
  assert (State.messages st1 = State.messages st ++ [AIMessage content (tool_call :: rest)])
    as Hmsgs by (subst st1; by rewrite Hturn).
  split; [done|]. split.
  - intros Hdone. rewrite (agent_turn _ _ _ _ Hturn). cbv zeta.
    apply String.eqb_eq in Hdone. by rewrite Hdone.
  - intros Hnot results Hall.
    assert (tool_handler_loop (tool_call :: rest) [] = Ok results) as Hloop
      by apply (tool_handler_loop_all _ [] _ Hall).
    split; [|split].
    + rewrite (tool_handler_last st1 content (tool_call :: rest)).
      * by rewrite Hloop.
      * rewrite Hmsgs. by rewrite last_snoc.
    + by apply dispatched_ids.
    + rewrite (agent_turn _ _ _ _ Hturn). cbv zeta.
      apply String.eqb_neq in Hnot. by rewrite Hnot, Hloop.
Qed.

(** C6, as the code has it.  When a model turn is routed to the tool
    handler (its first call is not "Done"), names a tool that is not in the
    registry, and the calls before that one all dispatch, the run aborts in
    the tool handler with the [KeyError] of the failed registry lookup,
    which carries the unknown name.  The registry holds exactly the four
    names write_email, schedule_meeting, check_calendar_availability and
    Done. *)
Theorem C6_unknown_tool_KeyError fuel (st : State.t) content before tool_call after recorded :
  llm_call st = Update.mk (Some [AIMessage content (before ++ tool_call :: after)]) None →
  (∀ first, head (before ++ tool_call :: after) = Some first →
            ToolCall.name first ≠ "Done") →
  Forall2 (λ tc m, dispatch tc = Ok m) before recorded →
  ToolCall.name tool_call
    ∉ ["write_email"; "schedule_meeting"; "check_calendar_availability"; "Done"] →
  tools_by_name !! ToolCall.name tool_call = None
  ∧ tool_handler (apply_update st (llm_call st))
    = Raise (KeyError (Some (ToolCall.name tool_call)))
  ∧ agent (S fuel) st
    = (["llm_call"; "tool_handler"], Failed (KeyError (Some (ToolCall.name tool_call)))).
Proof.
  intros Hturn Hfirst Hbefore Hname.
  assert (tool_handler_loop (before ++ tool_call :: after) []
          = Raise (KeyError (Some (ToolCall.name tool_call)))) as Hloop.
  { eapply tool_handler_loop_Raise; [exact Hbefore|]. by apply dispatch_unknown. }
  split; [by apply registry_names|]. split.
  - rewrite (tool_handler_last _ content (before ++ tool_call :: after)).
    + by rewrite Hloop.
    + rewrite Hturn, apply_update_messages. cbn. by rewrite last_snoc.
  - rewrite (agent_turn _ _ _ _ Hturn). cbv zeta. rewrite Hloop.
    destruct (before ++ tool_call :: after) as [|first others] eqn:Hcalls.
    { by destruct before. }
    specialize (Hfirst first eq_refl). apply String.eqb_neq in Hfirst.
    by rewrite Hfirst.
Qed.


(** ** The triage router *)

Lemma triage_router_cases (st : State.t) :
  triage_router st
  = let label := triage_classification st in
    if String.eqb label "respond" then
      Ok {| goto := "response_agent";
            update := Update.mk (Some [respond_instruction st]) (Some label) |}
    else if String.eqb label "ignore" then
      Ok {| goto := END; update := Update.mk None (Some label) |}
    else if String.eqb label "notify" then
      Ok {| goto := END; update := Update.mk None (Some label) |}
    else Raise (ValueError ("Invalid classification: " +:+ label)).
Proof.
  unfold triage_router, triage_classification, respond_instruction.
  by destruct (parse_email _) as [[[author to] subject] email_thread].
Qed.

(** C3. When the triage model labels the email "ignore" or "notify", the
    router goes to END with an update that has only the key
    [classification_decision]; the workflow finishes after the router
    alone, the agent is not entered, and the conversation is the one the
    workflow was given, so it holds no assistant or tool message unless it
    already did. *)
Theorem C3_ignore_notify_end fuel (st : State.t) :
  triage_classification st = "ignore" ∨ triage_classification st = "notify" →
  let st' := State.mk (State.messages st) (State.email_input st)
               (Some (triage_classification st)) in
  triage_router st
  = Ok {| goto := END; update := Update.mk None (Some (triage_classification st)) |}
  ∧ overall_workflow fuel st = (["triage_router"], Finished st')
  ∧ ("response_agent" ∉ fst (overall_workflow fuel st))
  ∧ State.messages st' = State.messages st
  ∧ (Forall (λ m, role m ≠ RAssistant ∧ role m ≠ RTool) (State.messages st) →
     Forall (λ m, role m ≠ RAssistant ∧ role m ≠ RTool) (State.messages st')).
Proof.
  intros Hlabel st'.
  assert (triage_router st
          = Ok {| goto := END;
                  update := Update.mk None (Some (triage_classification st)) |}) as Hrouter.
  { rewrite triage_router_cases. cbv zeta. by destruct Hlabel as [-> | ->]. }
  assert (overall_workflow fuel st = (["triage_router"], Finished st')) as Hrun.
  { unfold overall_workflow. rewrite Hrouter. cbn.
    unfold visit, apply_update. cbn. by rewrite app_nil_r. }
  repeat split; try done.
  rewrite Hrun. cbn. rewrite not_elem_of_cons. split; [done|apply not_elem_of_nil].
Qed.

(** C7. When the label of the triage model is none of "ignore", "respond"
    and "notify", the router raises a [ValueError] naming the label, and the
    workflow fails with it right after the router: no state is routed on. *)
Theorem C7_invalid_label_raises fuel (st : State.t) :
  triage_classification st ∉ ["ignore"; "respond"; "notify"] →
  triage_router st
  = Raise (ValueError ("Invalid classification: " +:+ triage_classification st))
  ∧ overall_workflow fuel st
    = (["triage_router"],
       Failed (ValueError ("Invalid classification: " +:+ triage_classification st))).
Proof.
  rewrite !not_elem_of_cons. intros (Hi & Hr & Hn & _).
  assert (triage_router st
          = Raise (ValueError ("Invalid classification: " +:+ triage_classification st)))
    as Hrouter.
  { rewrite triage_router_cases. cbv zeta.
    apply String.eqb_neq in Hi, Hr, Hn. by rewrite Hi, Hr, Hn. }
  split; [done|]. unfold overall_workflow. by rewrite Hrouter.
Qed.

(** C8. When the triage model labels the email "respond", the router goes
    to the response agent, appends exactly one user message, whose content
    is "Respond to the email: ", a blank line and the email formatted from
    its subject, author, recipient and thread, and sets
    [classification_decision] to "respond"; the workflow then runs the
    agent on that state. *)
Theorem C8_respond_seeds_agent fuel (st : State.t) author to subject email_thread :
  parse_email (State.email_input st) = (author, to, subject, email_thread) →
  triage_classification st = "respond" →
  let instruction :=
    HumanMessage ("Respond to the email: " +:+ nl +:+ nl
                    +:+ format_email_markdown subject author to email_thread) in
  let st' := State.mk (State.messages st ++ [instruction]) (State.email_input st)
               (Some "respond") in
  triage_router st
  = Ok {| goto := "response_agent";
          update := Update.mk (Some [instruction]) (Some "respond") |}
  ∧ role instruction = RUser
  ∧ apply_update st (Update.mk (Some [instruction]) (Some "respond")) = st'
  ∧ overall_workflow fuel st
    = visit "triage_router" (visit "response_agent" (agent fuel st')).
Proof.
  intros Hparse Hlabel instruction st'.
  assert (triage_router st
          = Ok {| goto := "response_agent";
                  update := Update.mk (Some [instruction]) (Some "respond") |}) as Hrouter.
  { rewrite triage_router_cases. cbv zeta. rewrite Hlabel. cbn.
    unfold respond_instruction. by rewrite Hparse. }
  split; [done|]. split; [done|]. split; [done|].
  unfold overall_workflow. by rewrite Hrouter.
Qed.

(** ** The calendar tool *)

(** C10. [check_calendar_availability] answers, for every day, the label
    "Available times on <day>" followed by the same three slots
    9:00 AM, 2:00 PM and 4:00 PM: whatever follows the echoed day in the
    answer does not depend on the day, and invoking the tool on a "day"
    argument gives exactly that text. *)
Theorem C10_calendar_slots_fixed :
  (∀ day, check_calendar_availability day
          = "Available times on " +:+ day +:+ ": 9:00 AM, 2:00 PM, 4:00 PM")
  ∧ (∀ day slots,
       check_calendar_availability day = "Available times on " +:+ day +:+ slots →
       slots = ": 9:00 AM, 2:00 PM, 4:00 PM")
  ∧ (∀ day, Tool.invoke check_calendar_availability_tool {[ "day" := VStr day ]}
            = Ok (check_calendar_availability day)).
Proof.
  split; [done|]. split.
  - intros day slots Heq. unfold check_calendar_availability in Heq.
    apply String.app_inj in Heq. apply String.app_inj in Heq. by symmetry.
  - intros day. cbn. unfold arg_str. by rewrite lookup_singleton_eq.
Qed.

End Properties.

(** * Runs of the scripted models *)

(** C1 on a run that writes an email and then calls Done. *)
Lemma C1_end_only_via_Done_witness :
  ∃ trace st',
    @agent host_reply_then_Done sample_package 2 seeded = (trace, Finished st')
    ∧ ∃ content calls tool_call,
        AIMessage content calls ∈ State.messages st'
        ∧ role (AIMessage content calls) = RAssistant
        ∧ tool_call ∈ calls
        ∧ ToolCall.name tool_call = "Done"
        ∧ last (State.messages st') = Some (AIMessage content calls).
Proof.
  eexists _, _. split; [vm_compute; reflexivity|].
  eapply (C1_end_only_via_Done (host := host_reply_then_Done) (pkg := sample_package)
            2 seeded).
  vm_compute; reflexivity.
Defined.

(** C9 on a turn that calls write_email first and Done second: the run goes
    to the tool handler. *)
Lemma C9_routing_by_first_call_witness :
  let st := State.mk
              [HumanMessage "Respond to the email";
               AIMessage "" [call_write_email "call_1"; call_Done "call_2"]]
              sample_email (Some "respond") in
  last (State.messages st)
  = Some (AIMessage "" [call_write_email "call_1"; call_Done "call_2"])
  ∧ should_continue st = Ok (Some "tool_handler")
  ∧ should_continue st ≫= conditional_edge path_map ≠ Ok END.
Proof.
  intros st.
  assert (last (State.messages st)
          = Some (AIMessage "" [call_write_email "call_1"; call_Done "call_2"]))
    as Hlast by reflexivity.
  destruct (C9_routing_by_first_call st "" (call_write_email "call_1")
              [call_Done "call_2"] Hlast) as (Hroute & Hend & _).
  split; [exact Hlast|]. split; [exact Hroute|].
  intros Habs. apply Hend in Habs. discriminate Habs.
Defined.

(** C5 on a turn of two calls. *)
Lemma C5_results_match_calls_witness :
  let st := State.mk
              [HumanMessage "Respond to the email";
               AIMessage "" [call_check_calendar "call_1"; call_write_email "call_2"]]
              sample_email (Some "respond") in
  ∃ u, @tool_handler host_silent st = Ok u
       ∧ ∃ content calls results,
           last (State.messages st) = Some (AIMessage content calls)
           ∧ u = Update.mk (Some results) None
           ∧ Forall2 (λ tc m, ∃ observation, m = ToolMessage observation (ToolCall.id tc))
               calls results
           ∧ length results = length calls
           ∧ tool_call_id_of <$> results = Some ∘ ToolCall.id <$> calls
           ∧ State.messages (apply_update st u) = State.messages st ++ results.
Proof.
  intros st. eexists. split; [vm_compute; reflexivity|].
  apply (C5_results_match_calls (host := host_silent) st).
  vm_compute; reflexivity.
Defined.

(** C2 fails as stated: the turn calls Done and write_email together, the
    run ends on it, and no tool result is in the final conversation. *)
Lemma C2_counterexample :
  ∃ st',
    @agent host_Done_first sample_package 3 seeded = (["llm_call"], Finished st')
    ∧ last (State.messages st')
      = Some (AIMessage "" [call_Done "call_1"; call_write_email "call_2"])
    ∧ Forall (λ m, role m ≠ RTool) (State.messages st').
Proof.
  eexists. split; [vm_compute; reflexivity|]. split; [reflexivity|].
  repeat constructor; discriminate.
Qed.

(** C2 as amended, on both kinds of turn. *)
Lemma C2_turn_with_Done_witness :
  (@llm_call host_Done_later sample_package seeded
   = Update.mk (Some [AIMessage "" [call_write_email "call_1"; call_Done "call_2"]]) None
   ∧ ∃ results,
       @tool_handler host_Done_later
         (apply_update seeded (@llm_call host_Done_later sample_package seeded))
       = Ok (Update.mk (Some results) None)
       ∧ tool_call_id_of <$> results = [Some "call_1"; Some "call_2"]
       ∧ fst (@agent host_Done_later sample_package 1 seeded)
         = ["llm_call"; "tool_handler"])
  ∧ (@llm_call host_Done_first sample_package seeded
     = Update.mk (Some [AIMessage "" [call_Done "call_1"; call_write_email "call_2"]]) None
     ∧ @agent host_Done_first sample_package 1 seeded
       = (["llm_call"],
          Finished (apply_update seeded (@llm_call host_Done_first sample_package seeded)))).
Proof.
  split.
  - assert (@llm_call host_Done_later sample_package seeded
            = Update.mk
                (Some [AIMessage "" [call_write_email "call_1"; call_Done "call_2"]]) None)
      as Hturn by reflexivity.
    split; [exact Hturn|].
    pose proof (C2_turn_with_Done (host := host_Done_later) (pkg := sample_package)
                  0 seeded "" (call_write_email "call_1") [call_Done "call_2"] Hturn)
      as Hspec.
    cbv zeta in Hspec. destruct Hspec as (_ & _ & Hlater).
    eassert (Forall2 (λ tc m, @dispatch host_Done_later tc = Ok m)
               [call_write_email "call_1"; call_Done "call_2"] _) as Hall.
    { constructor; [vm_compute; reflexivity|].
      constructor; [vm_compute; reflexivity|]. constructor. }
    assert (ToolCall.name (call_write_email "call_1") ≠ "Done") as Hname by discriminate.
    destruct (Hlater Hname _ Hall) as (Hhandler & Hids & Hrun).
    eexists. split; [exact Hhandler|]. split; [exact Hids|].
    rewrite Hrun. reflexivity.
  - assert (@llm_call host_Done_first sample_package seeded
            = Update.mk
                (Some [AIMessage "" [call_Done "call_1"; call_write_email "call_2"]]) None)
      as Hturn by reflexivity.
    split; [exact Hturn|].
    pose proof (C2_turn_with_Done (host := host_Done_first) (pkg := sample_package)
                  0 seeded "" (call_Done "call_1") [call_write_email "call_2"] Hturn)
      as Hspec.
    cbv zeta in Hspec. destruct Hspec as (_ & Hfirst & _).
    apply Hfirst. reflexivity.
Defined.

(** C6 fails as stated: the turn names the unregistered tool search_web
    after Done, and the run finishes without any error. *)
Lemma C6_counterexample :
  @llm_call host_Done_then_unknown sample_package seeded
  = Update.mk (Some [AIMessage "" [call_Done "call_1"; call_unknown "call_2"]]) None
  ∧ @tools_by_name host_Done_then_unknown !! ToolCall.name (call_unknown "call_2") = None
  ∧ ∃ st', @agent host_Done_then_unknown sample_package 3 seeded
           = (["llm_call"], Finished st').
Proof.
  split; [reflexivity|]. split; [vm_compute; reflexivity|].
  eexists. vm_compute. reflexivity.
Qed.

(** C6 as amended: search_web is the second call, after a calendar check
    that is executed. *)
Lemma C6_unknown_tool_KeyError_witness :
  @llm_call host_unknown sample_package seeded
  = Update.mk
      (Some [AIMessage ""
               ([call_check_calendar "call_1"]
                  ++ call_unknown "call_2" :: [call_write_email "call_3"])]) None
  ∧ @dispatch host_unknown (call_check_calendar "call_1")
    = Ok (ToolMessage "Available times on Tuesday: 9:00 AM, 2:00 PM, 4:00 PM" "call_1")
  ∧ @agent host_unknown sample_package 4 seeded
    = (["llm_call"; "tool_handler"], Failed (KeyError (Some "search_web"))).
Proof.
  assert (@llm_call host_unknown sample_package seeded
          = Update.mk
              (Some [AIMessage ""
                       ([call_check_calendar "call_1"]
                          ++ call_unknown "call_2" :: [call_write_email "call_3"])]) None)
    as Hturn by reflexivity.
  assert (@dispatch host_unknown (call_check_calendar "call_1")
          = Ok (ToolMessage "Available times on Tuesday: 9:00 AM, 2:00 PM, 4:00 PM"
                  "call_1")) as Hfirst by (vm_compute; reflexivity).
  split; [exact Hturn|]. split; [exact Hfirst|].
  refine (proj2 (proj2
    (C6_unknown_tool_KeyError (host := host_unknown) (pkg := sample_package)
       3 seeded "" [call_check_calendar "call_1"] (call_unknown "call_2")
       [call_write_email "call_3"]
       [ToolMessage "Available times on Tuesday: 9:00 AM, 2:00 PM, 4:00 PM" "call_1"]
       Hturn _ _ _))).
  - intros first [= <-]. discriminate.
  - constructor; [exact Hfirst|constructor].
  - rewrite !not_elem_of_cons. repeat split; try discriminate. apply not_elem_of_nil.
Defined.



(** C3 on [sample_email] with a model that answers "notify". *)
Lemma C3_ignore_notify_end_witness :
  let st := State.mk [] sample_email None in
  (@triage_classification host_notify sample_package st = "ignore"
   ∨ @triage_classification host_notify sample_package st = "notify")
  ∧ @invoke host_notify sample_package 5 sample_email
    = (["triage_router"], Finished (State.mk [] sample_email (Some "notify")))
  ∧ "response_agent" ∉ fst (@invoke host_notify sample_package 5 sample_email).
Proof.
  intros st.
  assert (@triage_classification host_notify sample_package st = "ignore"
          ∨ @triage_classification host_notify sample_package st = "notify") as Hlabel
    by (right; reflexivity).
  split; [exact Hlabel|].
  pose proof (C3_ignore_notify_end (host := host_notify) (pkg := sample_package)
                5 st Hlabel) as Hspec.
  cbv zeta in Hspec. destruct Hspec as (_ & Hrun & Hskip & _).
  split; [exact Hrun|exact Hskip].
Defined.

(** C7 on [sample_email] with a model that answers "urgent". *)
Lemma C7_invalid_label_raises_witness :
  let st := State.mk [] sample_email None in
  (@triage_classification host_urgent sample_package st
     ∉ ["ignore"; "respond"; "notify"])
  ∧ @triage_router host_urgent sample_package st
    = Raise (ValueError "Invalid classification: urgent")
  ∧ @invoke host_urgent sample_package 5 sample_email
    = (["triage_router"], Failed (ValueError "Invalid classification: urgent")).
Proof.
  intros st.
  assert (@triage_classification host_urgent sample_package st
            ∉ ["ignore"; "respond"; "notify"]) as Hlabel.
  { change (@triage_classification host_urgent sample_package st) with "urgent".
    rewrite !not_elem_of_cons. repeat split; try discriminate. apply not_elem_of_nil. }
  split; [exact Hlabel|].
  exact (C7_invalid_label_raises (host := host_urgent) (pkg := sample_package) 5 st Hlabel).
Defined.

(** C8 on [sample_email] with a model that answers "respond". *)
Lemma C8_respond_seeds_agent_witness :
  let st := State.mk [] sample_email None in
  let instruction :=
    HumanMessage
      ("Respond to the email: " +:+ nl +:+ nl
         +:+ @format_email_markdown sample_package
               "Quick question about API documentation"
               "Alice Smith <alice.smith@company.com>"
               "John Doe <john.doe@company.com>"
               "Hi John, are /auth/refresh and /auth/validate missing on purpose?") in
  @parse_email sample_package (State.email_input st)
  = ("Alice Smith <alice.smith@company.com>", "John Doe <john.doe@company.com>",
     "Quick question about API documentation",
     "Hi John, are /auth/refresh and /auth/validate missing on purpose?")
  ∧ @triage_classification host_reply_then_Done sample_package st = "respond"
  ∧ @triage_router host_reply_then_Done sample_package st
    = Ok {| goto := "response_agent";
            update := Update.mk (Some [instruction]) (Some "respond") |}
  ∧ fst (@invoke host_reply_then_Done sample_package 5 sample_email)
    = ["triage_router"; "response_agent"; "llm_call"; "tool_handler"; "llm_call"].
Proof.
  intros st instruction.
  assert (@parse_email sample_package (State.email_input st)
          = ("Alice Smith <alice.smith@company.com>", "John Doe <john.doe@company.com>",
             "Quick question about API documentation",
             "Hi John, are /auth/refresh and /auth/validate missing on purpose?"))
    as Hparse by (vm_compute; reflexivity).
  assert (@triage_classification host_reply_then_Done sample_package st = "respond")
    as Hlabel by reflexivity.
  split; [exact Hparse|]. split; [exact Hlabel|].
  pose proof (C8_respond_seeds_agent (host := host_reply_then_Done) (pkg := sample_package)
                5 st _ _ _ _ Hparse Hlabel) as Hspec.
  cbv zeta in Hspec. destruct Hspec as (Hrouter & _ & _ & Hrun).
  split; [exact Hrouter|].
  unfold invoke. fold st. rewrite Hrun. vm_compute. reflexivity.
Defined.

(** C10 on two days. *)
Lemma C10_calendar_slots_fixed_witness :
  check_calendar_availability "Tuesday"
  = "Available times on Tuesday: 9:00 AM, 2:00 PM, 4:00 PM"
  ∧ check_calendar_availability "2025-05-01"
    = "Available times on 2025-05-01: 9:00 AM, 2:00 PM, 4:00 PM".
Proof.
  destruct C10_calendar_slots_fixed as (Htext & _ & _).
  split; [apply (Htext "Tuesday")|apply (Htext "2025-05-01")].
Defined.

(** * Further properties of the agent *)

Section Further.
Context {host : Host} {pkg : EmailAssistant}.

(** ** Helper lemmas *)

Lemma tool_handler_loop_Raise_inv calls : ∀ result e,
  tool_handler_loop calls result = Raise e →
  ∃ before tool_call after recorded,
    calls = before ++ tool_call :: after
    ∧ Forall2 (λ tc m, dispatch tc = Ok m) before recorded
    ∧ dispatch tool_call = Raise e.
Proof.
  induction calls as [|tc calls IH]; intros result e Hrun; [done|].
  rewrite tool_handler_loop_step in Hrun.
  destruct (dispatch tc) as [m|e'] eqn:Hd; cbn in Hrun.
  - destruct (IH _ _ Hrun) as (before & bad & after & recorded & -> & Hall & Hbad).
    exists (tc :: before), bad, after, (m :: recorded).
    split; [done|]. split; [by constructor|done].
  - injection Hrun as <-. exists [], tc, calls, [].
    split; [done|]. split; [constructor|done].
Qed.

Lemma arg_str_Raise t k a e : arg_str t k a = Raise e → e = ValidationError t.
Proof. unfold arg_str. destruct (a !! k) as [[]|]; congruence. Qed.





Lemma bind_Raise {A B} (m : Fallible A) (f : A → Fallible B) e :
  m ≫= f = Raise e → m = Raise e ∨ ∃ a, m = Ok a ∧ f a = Raise e.
Proof. destruct m as [a|e']; cbn; [eauto|]. intros [= ->]. by left. Qed.

Lemma write_email_tool_Raise a e :
  Tool.invoke write_email_tool a = Raise e → e = ValidationError "write_email".
Proof.
  cbn. intros Hrun.
  apply bind_Raise in Hrun as [?%arg_str_Raise|(? & _ & Hrun)]; [done|].
  apply bind_Raise in Hrun as [?%arg_str_Raise|(? & _ & Hrun)]; [done|].
  apply bind_Raise in Hrun as [?%arg_str_Raise|(? & _ & Hrun)]; [done|].
  done.
Qed.




Lemma tools_by_name_Some name t :
  tools_by_name !! name = Some t → t ∈ tools ∧ Tool.name t = name.
Proof.
  unfold tools_by_name, tools. cbn [foldl Tool.name write_email_tool
    schedule_meeting_tool check_calendar_availability_tool Done_tool].
  intros Hlook.
  apply lookup_insert_Some in Hlook as [[<- <-]|[_ Hlook]];
    [split; [set_solver|done]|].
  apply lookup_insert_Some in Hlook as [[<- <-]|[_ Hlook]];
    [split; [set_solver|done]|].
  apply lookup_insert_Some in Hlook as [[<- <-]|[_ Hlook]];
    [split; [set_solver|done]|].
  apply lookup_insert_Some in Hlook as [[<- <-]|[_ Hlook]];
    [split; [set_solver|done]|].
  by rewrite lookup_empty in Hlook.
Qed.

Lemma tools_by_name_tool t :
  t ∈ tools → tools_by_name !! Tool.name t = Some t.
Proof.
  unfold tools. rewrite !elem_of_cons, elem_of_nil.
  intros [->|[->|[->|[->|[]]]]]; reflexivity.
Qed.



Lemma turn_of_llm_call (st : State.t) content calls :
  llm_call st = Update.mk (Some [AIMessage content calls]) None →
  apply_update st (llm_call st)
  = State.mk (State.messages st ++ [AIMessage content calls]) (State.email_input st)
      (State.classification_decision st).
Proof. by intros ->. Qed.

Lemma agent_Finished_inv fuel : ∀ st trace st',
  agent fuel st = (trace, Finished st') →
  ∃ turns content tool_call rest,
    st' = State.mk
            (State.messages st ++ concat (turn_messages <$> turns)
               ++ [AIMessage content (tool_call :: rest)])
            (State.email_input st) (State.classification_decision st)
    ∧ Forall (λ t, Forall2 (λ tc m, dispatch tc = Ok m) (turn_calls t) (turn_results t)
                   ∧ ∃ first others, turn_calls t = first :: others
                                     ∧ ToolCall.name first ≠ "Done") turns
    ∧ ToolCall.name tool_call = "Done"
    ∧ trace = concat (replicate (length turns) ["llm_call"; "tool_handler"])
                ++ ["llm_call"]
    ∧ length turns < fuel.
Proof.
  induction fuel as [|fuel IH]; intros st trace st' Hrun; [done|].
  destruct (llm_call_shape st) as (content & calls & Hturn).
  rewrite (agent_turn _ _ _ _ Hturn), (turn_of_llm_call _ _ _ Hturn) in Hrun.
  cbv zeta in Hrun. apply visit_inv in Hrun as (trace1 & -> & Hrun).
  destruct calls as [|tool_call rest]; [done|].
  destruct (String.eqb_spec (ToolCall.name tool_call) "Done") as [Hdone|Hnot].
  - injection Hrun as <- <-. exists [], content, tool_call, rest.
    repeat split; try done. cbn. lia.
  - apply visit_inv in Hrun as (trace2 & -> & Hrun).
    destruct (tool_handler_loop (tool_call :: rest) []) as [results|e] eqn:Hloop; [|done].
    apply tool_handler_loop_Ok in Hloop as (new & -> & Hall). cbn [app] in Hrun.
    apply IH in Hrun as (turns & content' & last_call & rest' & -> & Hturns & Hdone & -> & Hlen).
    exists ({| turn_content := content; turn_calls := tool_call :: rest;
               turn_results := new |} :: turns), content', last_call, rest'.
    split; [|split; [|split; [|split]]].
    + cbn. unfold turn_messages at 2. cbn. f_equal.
      by rewrite <- !app_assoc.
    + constructor; [|done]. cbn. split; [done|]. by exists tool_call, rest.
    + done.
    + done.
    + cbn. lia.
Qed.

(** ** The router and the tool handler without an assistant turn *)

(** [should_continue] and [tool_handler] both read the tool calls of the
    last message.  On an empty conversation each raises [IndexError]; when
    the last message is not an assistant message each raises the
    [AttributeError] of the missing attribute; and each returns exactly when
    the last message is an assistant message, respectively an assistant
    message whose calls all dispatch. *)
Theorem last_message_must_be_assistant (st : State.t) :
  (State.messages st = [] →
   should_continue st = Raise IndexError ∧ tool_handler st = Raise IndexError)
  ∧ (∀ m, last (State.messages st) = Some m → role m ≠ RAssistant →
          should_continue st = Raise (AttributeError "tool_calls")
          ∧ tool_handler st = Raise (AttributeError "tool_calls"))
  ∧ ((∃ r, should_continue st = Ok r)
     ↔ ∃ content calls, last (State.messages st) = Some (AIMessage content calls))
  ∧ ((∃ u, tool_handler st = Ok u)
     ↔ ∃ content calls results,
         last (State.messages st) = Some (AIMessage content calls)
         ∧ Forall2 (λ tc m, dispatch tc = Ok m) calls results).
Proof.
  split; [|split; [|split]].
  - intros Hnil. unfold should_continue, tool_handler. by rewrite Hnil.
  - intros m Hlast Hrole. unfold should_continue, tool_handler, last_message.
    rewrite Hlast. by destruct m.
  - split.
    + intros [r Hrun]. unfold should_continue, last_message in Hrun.
      destruct (last (State.messages st)) as [[| |content calls|]|]; try done. eauto.
    + intros (content & calls & Hlast). rewrite (should_continue_last _ _ _ Hlast). eauto.
  - split.
    + intros [u Hrun]. unfold tool_handler, last_message in Hrun.
      destruct (last (State.messages st)) as [[| |content calls|]|]; try done.
      cbn in Hrun. destruct (tool_handler_loop calls []) as [results|] eqn:Hloop; [|done].
      apply tool_handler_loop_Ok in Hloop as (new & _ & Hall). eauto.
    + intros (content & calls & results & Hlast & Hall).
      rewrite (tool_handler_last _ _ _ Hlast), (tool_handler_loop_all _ [] _ Hall). eauto.
Qed.

(** The tool handler stops at the first call that fails.  It raises [e]
    exactly when some call of the turn raises [e] on dispatch and every call
    emitted before it dispatches; the messages of those earlier calls are
    dropped with the exception, and the calls after it are not looked at:
    they can be anything. *)
Theorem tool_handler_first_failure (st : State.t) content calls e :
  last (State.messages st) = Some (AIMessage content calls) →
  tool_handler st = Raise e
  ↔ ∃ before tool_call after recorded,
      calls = before ++ tool_call :: after
      ∧ Forall2 (λ tc m, dispatch tc = Ok m) before recorded
      ∧ dispatch tool_call = Raise e.
Proof.
  intros Hlast. rewrite (tool_handler_last _ _ _ Hlast). split.
  - destruct (tool_handler_loop calls []) as [results|e'] eqn:Hloop; [done|].
    intros [= <-]. by eapply tool_handler_loop_Raise_inv.
  - intros (before & tool_call & after & recorded & -> & Hall & Hbad).
    by rewrite (tool_handler_loop_Raise _ _ _ [] _ _ Hall Hbad).
Qed.

(** The registry and the list of tools hold the same tools: looking a tool
    of the list up by its name finds that tool, no tool is overwritten by
    another of the same name, and whatever a lookup finds is a tool of the
    list under its own name. *)
Theorem tools_by_name_round_trip :
  (∀ t, t ∈ tools → tools_by_name !! Tool.name t = Some t)
  ∧ (∀ name t, tools_by_name !! name = Some t → t ∈ tools ∧ Tool.name t = name)
  ∧ dom tools_by_name
    = ({[ "write_email"; "schedule_meeting"; "check_calendar_availability"; "Done" ]}
       : gset string).
Proof.
  split; [exact tools_by_name_tool|]. split; [exact tools_by_name_Some|].
  unfold tools_by_name, tools. cbn [foldl Tool.name write_email_tool
    schedule_meeting_tool check_calendar_availability_tool Done_tool].
  rewrite !dom_insert_L, dom_empty_L. set_solver.
Qed.

(** ** Whole runs of the agent *)

(** A finished run of the agent leaves the conversation it was given and
    appends to it a sequence of completed turns and a closing assistant
    message whose first call is Done.  Every completed turn is an assistant
    message whose first call is not Done, followed by exactly the tool
    messages of its calls, in order.  The email and the classification
    decision of the state are untouched, and the run went through
    llm_call and tool_handler once per completed turn and through llm_call
    once more. *)
Theorem agent_finished_transcript fuel (st : State.t) trace st' :
  agent fuel st = (trace, Finished st') →
  ∃ turns content tool_call rest,
    st' = State.mk
            (State.messages st ++ concat (turn_messages <$> turns)
               ++ [AIMessage content (tool_call :: rest)])
            (State.email_input st) (State.classification_decision st)
    ∧ Forall (λ t, Forall2 (λ tc m, dispatch tc = Ok m) (turn_calls t) (turn_results t)
                   ∧ ∃ first others, turn_calls t = first :: others
                                     ∧ ToolCall.name first ≠ "Done") turns
    ∧ ToolCall.name tool_call = "Done"
    ∧ trace = concat (replicate (length turns) ["llm_call"; "tool_handler"])
                ++ ["llm_call"]
    ∧ length turns < fuel.
Proof. apply agent_Finished_inv. Qed.


(** The only way to END is an answer whose first call is Done.  With a
    model that never answers so, be it that it calls Done in a later
    position on every turn, no run of the agent finishes, however many
    turns it is followed for. *)
Theorem agent_needs_Done_first :
  (∀ messages first,
     head (llm_with_tools messages).2 = Some first → ToolCall.name first ≠ "Done") →
  ∀ fuel (st : State.t) trace st', agent fuel st ≠ (trace, Finished st').
Proof.
  intros Hmodel. induction fuel as [|fuel IH]; intros st trace st' Hrun; [done|].
  assert (llm_call st
          = Update.mk
              (Some [AIMessage
                       (llm_with_tools
                          (SystemMessage
                             (agent_system_prompt AGENT_TOOLS_PROMPT default_background
                                default_response_preferences default_cal_preferences)
                           :: State.messages st)).1
                       (llm_with_tools
                          (SystemMessage
                             (agent_system_prompt AGENT_TOOLS_PROMPT default_background
                                default_response_preferences default_cal_preferences)
                           :: State.messages st)).2]) None) as Hturn by reflexivity.
  specialize (Hmodel (SystemMessage
                        (agent_system_prompt AGENT_TOOLS_PROMPT default_background
                           default_response_preferences default_cal_preferences)
                      :: State.messages st)).
  rewrite (agent_turn _ _ _ _ Hturn) in Hrun. cbv zeta in Hrun.
  apply visit_inv in Hrun as (trace1 & -> & Hrun).
  destruct (llm_with_tools _).2 as [|first others]; [done|].
  specialize (Hmodel first eq_refl). apply String.eqb_neq in Hmodel.
  rewrite Hmodel in Hrun.
  apply visit_inv in Hrun as (trace2 & -> & Hrun).
  destruct (tool_handler_loop (first :: others) []) as [results|e]; [|done].
  by apply IH in Hrun.
Qed.

(** ** The workflow *)

Lemma overall_workflow_cases fuel (st : State.t) :
  overall_workflow fuel st
  = let label := triage_classification st in
    if String.eqb label "respond" then
      visit "triage_router"
        (visit "response_agent"
           (agent fuel
              (State.mk (State.messages st ++ [respond_instruction st])
                 (State.email_input st) (Some label))))
    else if String.eqb label "ignore" || String.eqb label "notify" then
      (["triage_router"],
       Finished (State.mk (State.messages st) (State.email_input st) (Some label)))
    else (["triage_router"], Failed (ValueError ("Invalid classification: " +:+ label))).
Proof.
  unfold overall_workflow. rewrite triage_router_cases. cbv zeta.
  destruct (String.eqb _ "respond"); [done|].
  destruct (String.eqb _ "ignore"); cbn.
  { unfold visit, apply_update. cbn. by rewrite app_nil_r. }
  destruct (String.eqb _ "notify"); cbn; [|done].
  unfold visit, apply_update. cbn. by rewrite app_nil_r.
Qed.

(** A finished run of the workflow keeps the email, records as
    [classification_decision] the label of the triage model, which is one
    of the three labels, and only ever appends to the conversation; the
    conversation is left as it was exactly when the label is not
    "respond". *)
Theorem overall_workflow_finished fuel (st : State.t) trace st' :
  overall_workflow fuel st = (trace, Finished st') →
  State.email_input st' = State.email_input st
  ∧ State.classification_decision st' = Some (triage_classification st)
  ∧ triage_classification st ∈ ["ignore"; "respond"; "notify"]
  ∧ State.messages st `prefix_of` State.messages st'
  ∧ (State.messages st' = State.messages st ↔ triage_classification st ≠ "respond").
Proof.
  rewrite overall_workflow_cases. cbv zeta.
  destruct (String.eqb_spec (triage_classification st) "respond") as [Hlabel|Hnot].
  - intros Hrun.
    apply visit_inv in Hrun as (trace1 & -> & Hrun).
    apply visit_inv in Hrun as (trace2 & -> & Hrun).
    apply agent_Finished_inv in Hrun
      as (turns & content & tool_call & rest & -> & _ & _ & _ & _).
    cbn. rewrite Hlabel. repeat split; try done.
    + set_solver.
    + rewrite <- app_assoc. by eexists.
    + intros Heq. apply (f_equal length) in Heq.
      rewrite !length_app in Heq. cbn in Heq. lia.
  - destruct (String.eqb_spec (triage_classification st) "ignore") as [Hi|Hi]; cbn.
    { intros [= <- <-]. cbn. rewrite Hi. repeat split; try done. set_solver. }
    destruct (String.eqb_spec (triage_classification st) "notify") as [Hn|Hn]; cbn.
    { intros [= <- <-]. cbn. rewrite Hn. repeat split; try done. set_solver. }
    done.
Qed.

(** The response agent is entered exactly when the label of the triage
    model is "respond", however the run then ends. *)
Theorem response_agent_iff_respond fuel (st : State.t) :
  "response_agent" ∈ fst (overall_workflow fuel st)
  ↔ triage_classification st = "respond".
Proof.
  rewrite overall_workflow_cases. cbv zeta.
  destruct (String.eqb_spec (triage_classification st) "respond") as [Hlabel|Hnot].
  - split; [done|]. intros _. cbn. set_solver.
  - destruct (_ || _); cbn; rewrite elem_of_cons, elem_of_nil;
      (split; [intros [[=]|[]]|done]).
Qed.

(** A finished run of [invoke] on an email labelled "respond" returns the
    conversation made of the instruction message of the router, then the
    completed turns of the agent, then the closing assistant message whose
    first call is Done: the first message is the only user message, and
    every tool message follows the assistant message that asked for it. *)
Theorem invoke_respond_conversation fuel email_input trace st' :
  invoke fuel email_input = (trace, Finished st') →
  triage_classification (State.mk [] email_input None) = "respond" →
  ∃ turns content tool_call rest,
    State.messages st'
    = respond_instruction (State.mk [] email_input None)
        :: concat (turn_messages <$> turns) ++ [AIMessage content (tool_call :: rest)]
    ∧ Forall (λ t, Forall2 (λ tc m, dispatch tc = Ok m) (turn_calls t) (turn_results t))
        turns
    ∧ ToolCall.name tool_call = "Done"
    ∧ trace = "triage_router" :: "response_agent"
              :: concat (replicate (length turns) ["llm_call"; "tool_handler"])
              ++ ["llm_call"].
Proof.
  unfold invoke. rewrite overall_workflow_cases. cbv zeta.
  intros Hrun Hlabel. rewrite Hlabel in Hrun. cbn [String.eqb] in Hrun.
  change (String.eqb "respond" "respond") with true in Hrun. cbv iota in Hrun.
  apply visit_inv in Hrun as (trace1 & -> & Hrun).
  apply visit_inv in Hrun as (trace2 & -> & Hrun).
  apply agent_Finished_inv in Hrun
    as (turns & content & tool_call & rest & -> & Hturns & Hdone & -> & _).
  exists turns, content, tool_call, rest. repeat split; try done.
  eapply Forall_impl; [exact Hturns|]. by intros t [Hall _].
Qed.

End Further.

(** * Further properties of the LangGraph 101 workflows *)

Section Further101.
Context {host : Host}.

Lemma run_tool_loop_step tool_call calls result :
  LangGraph101.run_tool_loop (tool_call :: calls) result
  = observation ← Tool.invoke write_email_tool (ToolCall.args tool_call);
    LangGraph101.run_tool_loop calls
      (result ++ [ToolMessage observation (ToolCall.id tool_call)]).
Proof. reflexivity. Qed.

Lemma run_tool_loop_Ok calls : ∀ result out,
  LangGraph101.run_tool_loop calls result = Ok out →
  ∃ new, out = result ++ new
         ∧ Forall2 (λ tc m, ∃ observation,
                      Tool.invoke write_email_tool (ToolCall.args tc) = Ok observation
                      ∧ m = ToolMessage observation (ToolCall.id tc)) calls new.
Proof.
  induction calls as [|tc calls IH]; intros result out Hrun.
  - exists []. cbn in Hrun. injection Hrun as <-. by rewrite app_nil_r.
  - rewrite run_tool_loop_step in Hrun.
    destruct (Tool.invoke write_email_tool (ToolCall.args tc)) as [obs|e] eqn:Hinv;
      [|done].
    cbn [mbind Fallible_bind] in Hrun.
    destruct (IH _ _ Hrun) as (new & -> & Hall).
    exists (ToolMessage obs (ToolCall.id tc) :: new).
    split; [by rewrite <- app_assoc|]. constructor; [eauto|done].
Qed.

Lemma run_tool_loop_Raise calls : ∀ result e,
  LangGraph101.run_tool_loop calls result = Raise e → e = ValidationError "write_email".
Proof.
  induction calls as [|tc calls IH]; intros result e Hrun; [done|].
  rewrite run_tool_loop_step in Hrun.
  apply bind_Raise in Hrun as [Hrun|(obs & _ & Hrun)].
  - by apply write_email_tool_Raise in Hrun.
  - by apply IH in Hrun.
Qed.

Lemma run_tool_loop_names calls : ∀ calls' result,
  ToolCall.args <$> calls = ToolCall.args <$> calls' →
  ToolCall.id <$> calls = ToolCall.id <$> calls' →
  LangGraph101.run_tool_loop calls result = LangGraph101.run_tool_loop calls' result.
Proof.
  induction calls as [|tc calls IH]; intros [|tc' calls'] result Hargs Hids; try done.
  injection Hargs as Harg Hargs. injection Hids as Hid Hids.
  rewrite !run_tool_loop_step, Harg, Hid.
  destruct (Tool.invoke write_email_tool (ToolCall.args tc')) as [obs|e]; [|done].
  cbn [mbind Fallible_bind]. by apply IH.
Qed.

Lemma write_email_tool_Ok a text :
  Tool.invoke write_email_tool a = Ok text
  ↔ ∃ to subject content,
      a !! "to" = Some (VStr to) ∧ a !! "subject" = Some (VStr subject)
      ∧ a !! "content" = Some (VStr content)
      ∧ text = write_email to subject content.
Proof.
  cbn. unfold arg_str. split.
  - destruct (a !! "to") as [[to| | |]|]; try done.
    destruct (a !! "subject") as [[subject| | |]|]; try done.
    destruct (a !! "content") as [[content| | |]|]; try done.
    cbn. intros [= <-]. by exists to, subject, content.
  - intros (to & subject & content & -> & -> & -> & ->). done.
Qed.

(** [run_tool] sends every call of the turn to [write_email] whatever tool
    the call names: two turns whose calls have the same arguments and ids
    give the same tool messages, and no name makes it raise a [KeyError]. *)
Theorem run_tool_ignores_names messages messages' content content' calls calls' :
  last messages = Some (AIMessage content calls) →
  last messages' = Some (AIMessage content' calls') →
  ToolCall.args <$> calls = ToolCall.args <$> calls' →
  ToolCall.id <$> calls = ToolCall.id <$> calls' →
  LangGraph101.run_tool messages = LangGraph101.run_tool messages'
  ∧ ∀ key, LangGraph101.run_tool messages ≠ Raise (KeyError key).
Proof.
  intros Hlast Hlast' Hargs Hids.
  unfold LangGraph101.run_tool, last_message. rewrite Hlast, Hlast'. cbn.
  split; [by apply run_tool_loop_names|].
  intros key Hrun. by apply run_tool_loop_Raise in Hrun.
Qed.

(** The second workflow asks the model once and never goes back to it.
    Whatever the run, the conversation it ends with is the one it was given,
    the answer of the model, and one tool message per call of that answer,
    in order, each the confirmation of [write_email] on the arguments of its
    call; run_tool is visited exactly when the answer has a call; and the
    only way the run fails is [write_email] rejecting the arguments of a
    call. *)
Theorem workflow_one_shot messages trace ending :
  LangGraph101.workflow messages = (trace, ending) →
  ∃ content calls,
    model_with_tools messages = (content, calls)
    ∧ trace = match calls with [] => ["call_llm"] | _ :: _ => ["call_llm"; "run_tool"] end
    ∧ (ending = LangGraph101.Failed (ValidationError "write_email")
       ∨ ∃ results,
           ending = LangGraph101.Finished (messages ++ AIMessage content calls :: results)
           ∧ Forall2 (λ tc m, ∃ observation,
                        Tool.invoke write_email_tool (ToolCall.args tc) = Ok observation
                        ∧ m = ToolMessage observation (ToolCall.id tc)) calls results).
Proof.
  unfold LangGraph101.workflow, LangGraph101.call_llm, LangGraph101.should_continue,
    LangGraph101.run_tool.
  destruct (model_with_tools messages) as [content calls] eqn:Hanswer. cbn [fst snd].
  rewrite last_message_snoc. cbn [mbind Fallible_bind tool_calls].
  intros Hrun. exists content, calls. split; [done|].
  destruct calls as [|tool_call rest].
  - injection Hrun as <- <-. split; [done|]. right. exists [].
    split; [done|constructor].
  - change (conditional_edge LangGraph101.path_map (Some "run_tool")) with (Ok "run_tool")
      in Hrun.
    change (String.eqb "run_tool" END) with false in Hrun. cbv iota in Hrun.
    destruct (LangGraph101.run_tool_loop (tool_call :: rest) []) as [results|e] eqn:Hloop;
      cbn in Hrun; injection Hrun as <- <-; (split; [done|]).
    + right. apply run_tool_loop_Ok in Hloop as (new & -> & Hall).
      exists new. split; [|done]. cbn. by rewrite <- app_assoc.
    + left. by apply run_tool_loop_Raise in Hloop as ->.
Qed.

(** The first workflow writes one email from the request.  Without the key
    "request" it raises a [KeyError]; when the model answers without a tool
    call it raises [IndexError]; and when it returns, the request is
    unchanged and the email is the confirmation of [write_email] on the
    arguments of the first call of the model, whatever the other calls and
    the email the state had before. *)
Theorem app_writes_one_email (state : LangGraph101.StateSchema) :
  (LangGraph101.request state = None →
   LangGraph101.app state = Raise (KeyError (Some "request")))
  ∧ (∀ r content,
       LangGraph101.request state = Some r →
       model_with_tools [HumanMessage r] = (content, []) →
       LangGraph101.app state = Raise IndexError)
  ∧ (∀ state',
       LangGraph101.app state = Ok state' →
       LangGraph101.request state' = LangGraph101.request state
       ∧ ∃ r content tool_call rest to subject body,
           LangGraph101.request state = Some r
           ∧ model_with_tools [HumanMessage r] = (content, tool_call :: rest)
           ∧ ToolCall.args tool_call !! "to" = Some (VStr to)
           ∧ ToolCall.args tool_call !! "subject" = Some (VStr subject)
           ∧ ToolCall.args tool_call !! "content" = Some (VStr body)
           ∧ LangGraph101.email state' = Some (write_email to subject body)).
Proof.
  unfold LangGraph101.app, LangGraph101.write_email_node.
  split; [|split].
  - by intros ->.
  - intros r content -> ->. done.
  - intros state'. destruct (LangGraph101.request state) as [r|] eqn:Hreq; [|done].
    destruct (model_with_tools [HumanMessage r]) as [content calls] eqn:Hanswer.
    cbn [snd]. destruct calls as [|tool_call rest]; [done|].
    destruct (Tool.invoke write_email_tool (ToolCall.args tool_call)) as [text|e] eqn:Hinv;
      [|done].
    cbn [mbind Fallible_bind mret Fallible_ret LangGraph101.request LangGraph101.email].
    intros [= <-].
    cbn [mbind Fallible_bind mret Fallible_ret LangGraph101.request LangGraph101.email].
    split; [done|].
    apply write_email_tool_Ok in Hinv as (to & subject & body & Hto & Hsub & Hbody & ->).
    by exists r, content, tool_call, rest, to, subject, body.
Qed.

End Further101.

(** * Further runs of the scripted models *)

Lemma last_message_must_be_assistant_witness :
  let empty := State.mk [] sample_email None in
  let st := State.mk [HumanMessage "Respond to the email"] sample_email None in
  (@should_continue empty = Raise IndexError
   ∧ @tool_handler host_silent empty = Raise IndexError)
  ∧ (should_continue st = Raise (AttributeError "tool_calls")
     ∧ @tool_handler host_silent st = Raise (AttributeError "tool_calls")).
Proof.
  intros empty st. split.
  - apply (last_message_must_be_assistant (host := host_silent) empty). reflexivity.
  - apply (proj1 (proj2 (last_message_must_be_assistant (host := host_silent) st))
             (HumanMessage "Respond to the email")); [reflexivity|discriminate].
Defined.

Lemma tool_handler_first_failure_witness :
  let calls := [call_check_calendar "call_1"; call_unknown "call_2";
                call_write_email "call_3"] in
  let st := State.mk [HumanMessage "Respond to the email"; AIMessage "" calls]
              sample_email None in
  last (State.messages st) = Some (AIMessage "" calls)
  ∧ @tool_handler host_silent st = Raise (KeyError (Some "search_web")).
Proof.
  intros calls st. split; [reflexivity|].
  apply (tool_handler_first_failure (host := host_silent) st "" calls
           (KeyError (Some "search_web")) eq_refl).
  exists [call_check_calendar "call_1"], (call_unknown "call_2"),
    [call_write_email "call_3"],
    [ToolMessage "Available times on Tuesday: 9:00 AM, 2:00 PM, 4:00 PM" "call_1"].
  split; [reflexivity|]. split; [|vm_compute; reflexivity].
  constructor; [vm_compute; reflexivity|constructor].
Defined.

Lemma tools_by_name_round_trip_witness :
  @tools_by_name host_silent !! "Done" = Some (@Done_tool)
  ∧ "write_email" ∈ dom (@tools_by_name host_silent).
Proof.
  destruct (tools_by_name_round_trip (host := host_silent)) as (Hget & _ & Hdom).
  split.
  - apply (Hget Done_tool). unfold tools. set_solver.
  - rewrite Hdom. set_solver.
Defined.

Lemma agent_finished_transcript_witness :
  ∃ trace st',
    @agent host_Done_later sample_package 5 seeded = (trace, Finished st')
    ∧ ∃ turns content tool_call rest,
        st' = State.mk
                (State.messages seeded ++ concat (turn_messages <$> turns)
                   ++ [AIMessage content (tool_call :: rest)])
                (State.email_input seeded) (State.classification_decision seeded)
        ∧ Forall (λ t, Forall2 (λ tc m, @dispatch host_Done_later tc = Ok m)
                         (turn_calls t) (turn_results t)
                       ∧ ∃ first others, turn_calls t = first :: others
                                         ∧ ToolCall.name first ≠ "Done") turns
        ∧ ToolCall.name tool_call = "Done"
        ∧ trace = concat (replicate (length turns) ["llm_call"; "tool_handler"])
                    ++ ["llm_call"]
        ∧ length turns < 5.
Proof.
  eexists _, _. split; [vm_compute; reflexivity|].
  eapply (agent_finished_transcript (host := host_Done_later) (pkg := sample_package)
            5 seeded).
  vm_compute; reflexivity.
Defined.


Lemma agent_needs_Done_first_witness :
  (∀ messages first,
     head (@llm_with_tools host_Done_second messages).2 = Some first →
     ToolCall.name first ≠ "Done")
  ∧ ∀ trace st', @agent host_Done_second sample_package 12 seeded ≠ (trace, Finished st').
Proof.
  assert (∀ messages first,
            head (@llm_with_tools host_Done_second messages).2 = Some first →
            ToolCall.name first ≠ "Done") as Hmodel.
  { intros messages first [= <-]. discriminate. }
  split; [exact Hmodel|].
  exact (agent_needs_Done_first (host := host_Done_second) (pkg := sample_package)
           Hmodel 12 seeded).
Defined.

Lemma overall_workflow_finished_witness :
  let st := State.mk [] sample_email None in
  ∃ trace st',
    @overall_workflow host_reply_then_Done sample_package 5 st = (trace, Finished st')
    ∧ State.email_input st' = sample_email
    ∧ State.classification_decision st' = Some "respond"
    ∧ State.messages st' ≠ State.messages st.
Proof.
  intros st.
  eassert (@overall_workflow host_reply_then_Done sample_package 5 st = (_, Finished _))
    as Hrun by (vm_compute; reflexivity).
  destruct (overall_workflow_finished (host := host_reply_then_Done)
              (pkg := sample_package) 5 st _ _ Hrun)
    as (Hemail & Hdecision & _ & _ & Hsame).
  eexists _, _. split; [exact Hrun|]. split; [exact Hemail|]. split; [exact Hdecision|].
  intros Heq. apply Hsame in Heq. apply Heq. reflexivity.
Defined.

Lemma response_agent_iff_respond_witness :
  "response_agent" ∈ fst (@invoke host_reply_then_Done sample_package 5 sample_email)
  ∧ "response_agent" ∉ fst (@invoke host_notify sample_package 5 sample_email).
Proof.
  split.
  - apply (response_agent_iff_respond (host := host_reply_then_Done)
             (pkg := sample_package)). reflexivity.
  - intros Hin.
    apply (response_agent_iff_respond (host := host_notify) (pkg := sample_package))
      in Hin.
    discriminate Hin.
Defined.

Lemma invoke_respond_conversation_witness :
  ∃ trace st',
    @invoke host_Done_later sample_package 5 sample_email = (trace, Finished st')
    ∧ @triage_classification host_Done_later sample_package
        (State.mk [] sample_email None) = "respond"
    ∧ head (State.messages st')
      = Some (@respond_instruction sample_package (State.mk [] sample_email None))
    ∧ head trace = Some "triage_router".
Proof.
  eassert (@invoke host_Done_later sample_package 5 sample_email = (_, Finished _))
    as Hrun by (vm_compute; reflexivity).
  destruct (invoke_respond_conversation (host := host_Done_later) (pkg := sample_package)
              5 sample_email _ _ Hrun eq_refl)
    as (turns & content & tool_call & rest & Hmessages & _ & _ & Htrace).
  eexists _, _. split; [exact Hrun|]. split; [reflexivity|]. split.
  - rewrite Hmessages. reflexivity.
  - rewrite Htrace. reflexivity.
Defined.

Lemma run_tool_ignores_names_witness :
  let renamed := ToolCall.mk "search_web" (ToolCall.args (call_write_email "call_1"))
                   "call_1" in
  LangGraph101.run_tool [HumanMessage "Draft a response"; AIMessage "" [renamed]]
  = LangGraph101.run_tool
      [HumanMessage "Draft a response"; AIMessage "" [call_write_email "call_1"]]
  ∧ LangGraph101.run_tool [HumanMessage "Draft a response"; AIMessage "" [renamed]]
    ≠ Raise (KeyError (Some "search_web")).
Proof.
  intros renamed.
  destruct (run_tool_ignores_names
              [HumanMessage "Draft a response"; AIMessage "" [renamed]]
              [HumanMessage "Draft a response"; AIMessage "" [call_write_email "call_1"]]
              "" "" [renamed] [call_write_email "call_1"]
              eq_refl eq_refl eq_refl eq_refl) as [Hsame Hnever].
  split; [exact Hsame|apply Hnever].
Defined.

Lemma workflow_one_shot_witness :
  ∃ trace ending,
    @LangGraph101.workflow host_reply_then_Done [HumanMessage "Draft a response"]
    = (trace, ending)
    ∧ ∃ content calls,
        @model_with_tools host_reply_then_Done [HumanMessage "Draft a response"]
        = (content, calls)
        ∧ trace = match calls with
                  | [] => ["call_llm"]
                  | _ :: _ => ["call_llm"; "run_tool"]
                  end
        ∧ (ending = LangGraph101.Failed (ValidationError "write_email")
           ∨ ∃ results,
               ending = LangGraph101.Finished
                          ([HumanMessage "Draft a response"]
                             ++ AIMessage content calls :: results)
               ∧ Forall2 (λ tc m, ∃ observation,
                            Tool.invoke write_email_tool (ToolCall.args tc) = Ok observation
                            ∧ m = ToolMessage observation (ToolCall.id tc)) calls results).
Proof.
  eexists _, _. split; [vm_compute; reflexivity|].
  eapply (workflow_one_shot (host := host_reply_then_Done)).
  vm_compute; reflexivity.
Defined.

Lemma app_writes_one_email_witness :
  let state := {| LangGraph101.request := Some "Draft a response to my boss";
                  LangGraph101.email := Some "an earlier draft" |} in
  ∃ state',
    @LangGraph101.app host_reply_then_Done state = Ok state'
    ∧ LangGraph101.request state' = Some "Draft a response to my boss"
    ∧ LangGraph101.email state'
      = Some (write_email "alice.smith@company.com"
                "Re: Quick question about API documentation"
                "They are missing by mistake.")
    ∧ @LangGraph101.app host_silent state = Raise IndexError
    ∧ @LangGraph101.app host_silent
        {| LangGraph101.request := None; LangGraph101.email := None |}
      = Raise (KeyError (Some "request")).
Proof.
  intros state.
  eassert (@LangGraph101.app host_reply_then_Done state = Ok _)
    as Hrun by (vm_compute; reflexivity).
  destruct (proj2 (proj2 (app_writes_one_email (host := host_reply_then_Done) state))
              _ Hrun) as (Hrequest & _).
  eexists. split; [exact Hrun|]. split; [exact Hrequest|]. split; [reflexivity|].
  split.
  - apply (proj1 (proj2 (app_writes_one_email (host := host_silent) state))
             "Draft a response to my boss" ""); reflexivity.
  - apply (proj1 (app_writes_one_email (host := host_silent) _)). reflexivity.
Defined.
